(** * Shredder editor view (gui/shredder/views/editor.py)

    A shallow embedding of the control logic of the editor view: the
    running label that sums up removed sizes, the run button with its
    dry-run toggle, the save dialog's file name handling and the screen
    switching of [EditorView].  Widgets are records holding the part of
    their state the handlers read or write; handlers are functions on
    these records.  Calls into collaborators whose code lives elsewhere
    (the script runner, the tree model, GLib, the C library's clock) are
    either recorded in the state or taken from a [Runtime] interface. *)

From Stdlib Require Import String Ascii List ZArith Bool Lia.
From Stdlib Require DecimalString.
Import ListNotations.

Local Open Scope string_scope.

(** ** Python values and exceptions *)

Module Py.

(** The two exceptions the modelled code can meet. *)
Inductive exn : Type :=
| ValueError
| TypeError.

(** A computation either returns or raises. *)
Inductive result (A : Type) : Type :=
| Ok (a : A)
| Raise (e : exn).

Arguments Ok {A} a.
Arguments Raise {A} e.

Definition bind {A B} (m : result A) (k : A -> result B) : result B :=
  match m with
  | Ok a => k a
  | Raise e => Raise e
  end.

(** [try: body except ValueError: handler]. *)
Definition except_ValueError {A} (body : result A) (handler : result A)
  : result A :=
  match body with
  | Raise ValueError => handler
  | other => other
  end.

Definition returns {A} (m : result A) : Prop := exists a, m = Ok a.

(** Truthiness of an optional string: [None] and [''] are falsy. *)
Definition truthy (s : option string) : bool :=
  match s with
  | None => false
  | Some s => negb (s =? "")
  end.

(** [a or b] on optional strings, [b] being a string. *)
Definition or_str (a : option string) (b : string) : string :=
  match a with
  | Some s => if s =? "" then b else s
  | None => b
  end.

(** [a + b] where [a] is a string: concatenation when [b] is a string,
    [TypeError] when it is [None]. *)
Definition str_add (a : string) (b : option string) : result string :=
  match b with
  | Some s => Ok (a ++ s)
  | None => Raise TypeError
  end.

(** [x, y = l]: unpacking into two names needs exactly two items. *)
Definition unpack2 {A} (l : list A) : result (A * A) :=
  match l with
  | [x; y] => Ok (x, y)
  | _ => Raise ValueError
  end.

(** [o[i]] on a value that may be [None]: subscripting [None] is a
    [TypeError]. *)
Definition getitem {A B} (o : option A) (column : A -> B) : result B :=
  match o with
  | Some a => Ok (column a)
  | None => Raise TypeError
  end.

Definition is_not_None {A} (o : option A) : bool :=
  match o with
  | Some _ => true
  | None => false
  end.

(** Splitting at the last occurrence of [sep]: the part before it and
    the part after it, if [sep] occurs. *)
Fixpoint rpartition (sep : ascii) (s : string) : option (string * string) :=
  match s with
  | EmptyString => None
  | String c rest =>
      match rpartition sep rest with
      | Some (before, after) => Some (String c before, after)
      | None => if Ascii.eqb c sep then Some (EmptyString, rest) else None
      end
  end.

(** [s.rsplit(sep, 1)] for a one-character separator. *)
Definition rsplit1 (sep : ascii) (s : string) : list string :=
  match rpartition sep s with
  | Some (before, after) => [before; after]
  | None => [s]
  end.

(** [sep in s]. *)
Fixpoint contains (sep : ascii) (s : string) : bool :=
  match s with
  | EmptyString => false
  | String c rest => Ascii.eqb c sep || contains sep rest
  end.

End Py.

Import Py.

Notation "x <- m ;; k" := (Py.bind m (fun x => k))
  (at level 61, m at next level, right associativity).

(** ** What the view takes from outside *)

(** Functions the view calls and whose code is not part of it:
    [str.lower] of the interpreter, [size_to_human_readable] of
    [shredder.util] and [GLib.markup_escape_text]. *)
Class Runtime : Type := {
  str_lower : string -> string;
  size_to_human_readable : Z -> string;
  markup_escape_text : string -> string;
}.

(** A row of the runner's tree model; the view reads its [Column.SIZE]
    cell only. *)
Record Node : Type := {
  column_SIZE : Z;
}.

(** The runner's tree model, seen through [lookup_by_path]. *)
Record TreeModel : Type := {
  lookup_by_path : string -> option Node;
}.

(** ** RunningLabel *)

Definition newline : string := String (ascii_of_nat 10) EmptyString.

(** [REMOVED_LABEL.format(t=t, s=s, p=p)]. *)
Definition REMOVED_LABEL (t s p : string) : string :=
  "<big>" ++ s ++ "</big><small> removed</small>" ++ newline
  ++ "<small>" ++ t ++ "</small> <b><big>" ++ p ++ "</big></b>" ++ newline.

(** What follows the size in the label. *)
Definition label_tail (t p : string) : string :=
  "</big><small> removed</small>" ++ newline
  ++ "<small>" ++ t ++ "</small> <b><big>" ++ p ++ "</big></b>" ++ newline.

Record RunningLabel : Type := {
  size_sum : Z;          (* self._size_sum *)
  markup : string;       (* what set_markup was last given *)
}.

Definition set_markup (text : string) (self : RunningLabel) : RunningLabel :=
  {| size_sum := size_sum self; markup := text |}.

Definition add_size (n : Z) (self : RunningLabel) : RunningLabel :=
  {| size_sum := size_sum self + n; markup := markup self |}.

Section RunningLabel.
Context `{Runtime}.

(** [prefix.lower() == 'keeping']. *)
Definition is_keeping (prefix : string) : bool :=
  str_lower prefix =? "keeping".

(** [RunningLabel.push]. *)
Definition push (model : option TreeModel) (prefix path : string)
           (self : RunningLabel) : Py.result RunningLabel :=
  if is_keeping prefix then Ok self
  else
    let text :=
      REMOVED_LABEL prefix
                    (size_to_human_readable (size_sum self))
                    (markup_escape_text path) in
    let self := set_markup text self in
    match model with
    | None => Ok self
    | Some model =>
        let node := lookup_by_path model path in
        if is_not_None node then
          size <- getitem node column_SIZE ;;
          Ok (add_size size self)
        else Ok self
    end.

(** The rendering of an event: its prefix and its escaped path appear in
    the label, next to some size. *)
Definition shows (label prefix path : string) : Prop :=
  exists s, label = REMOVED_LABEL prefix s (markup_escape_text path).

(** [RunningLabel.__init__]: the sum starts at zero and an empty path is
    pushed without a model. *)
Definition RunningLabel_init : Py.result RunningLabel :=
  push None "" "" {| size_sum := 0; markup := "" |}.

(** A stream of [line-read] events reaching one label through one
    handler bound to [model]. *)
Fixpoint push_all (model : option TreeModel) (events : list (string * string))
         (self : RunningLabel) : Py.result RunningLabel :=
  match events with
  | [] => Ok self
  | (prefix, path) :: rest =>
      self <- push model prefix path self ;;
      push_all model rest self
  end.

End RunningLabel.

(** ** The clock: [time.strftime] *)

(** The local time as the C library breaks it down; [tm_gmtoff] is the
    offset from UTC in seconds. *)
Record struct_time : Type := {
  tm_year : nat;
  tm_mon : nat;
  tm_mday : nat;
  tm_hour : nat;
  tm_min : nat;
  tm_sec : nat;
  tm_gmtoff : Z;
}.

Definition decimal (n : nat) : string :=
  DecimalString.NilEmpty.string_of_uint (Nat.to_uint n).

(** Two digits, zero padded. *)
Definition decimal2 (n : nat) : string :=
  if Nat.ltb n 10 then "0" ++ decimal n else decimal n.

(** [%F]: the ISO 8601 date. *)
Definition strftime_F (t : struct_time) : string :=
  decimal (tm_year t) ++ "-" ++ decimal2 (tm_mon t) ++ "-"
  ++ decimal2 (tm_mday t).

(** [%T]: the time of day. *)
Definition strftime_T (t : struct_time) : string :=
  decimal2 (tm_hour t) ++ ":" ++ decimal2 (tm_min t) ++ ":"
  ++ decimal2 (tm_sec t).

(** [%z]: the offset from UTC as [+hhmm] or [-hhmm]. *)
Definition strftime_z (t : struct_time) : string :=
  let minutes := Z.to_nat (Z.abs (tm_gmtoff t) / 60) in
  (if Z.ltb (tm_gmtoff t) 0 then "-" else "+")
  ++ decimal2 (minutes / 60) ++ decimal2 (minutes mod 60).

(** One conversion specification; those the view does not use are left
    as they stand. *)
Definition directive (d : ascii) (t : struct_time) : string :=
  if Ascii.eqb d "F" then strftime_F t
  else if Ascii.eqb d "T" then strftime_T t
  else if Ascii.eqb d "z" then strftime_z t
  else if Ascii.eqb d "%" then "%"
  else String "%" (String d EmptyString).

(** [time.strftime(format, t)]: ordinary characters are copied, a [%]
    starts a conversion specification. *)
Fixpoint strftime (format : string) (t : struct_time) : string :=
  match format with
  | EmptyString => EmptyString
  | String c rest =>
      if Ascii.eqb c "%" then
        match rest with
        | EmptyString => "%"
        | String d rest' => directive d t ++ strftime rest' t
        end
      else String c (strftime rest t)
  end.

(** The time stamp of a suggested name: date, a [T], time of day and
    offset from UTC. *)
Definition timestamp (now : struct_time) : string :=
  strftime_F now ++ "T" ++ strftime_T now ++ strftime_z now.

(** [rmlint-<timestamp>.<ext>]. *)
Definition suggestion (now : struct_time) (ext : string) : string :=
  "rmlint-" ++ timestamp now ++ "." ++ ext.

(** ** ScriptSaverDialog *)

(** The formats the dialog's button is built with. *)
Definition file_type_choices : list string := ["sh"; "json"; "csv"].

(** The file chooser as the handlers see it.  [file_type] is what the
    format button's [get_selected_choice()] returns, [filename] what the
    chooser's [get_filename()] returns, [current_name] the name last given
    to [set_current_name], [confirm_sensitive] the Save button's
    sensitivity. *)
Record ScriptSaverDialog : Type := {
  file_type : option string;
  filename : option string;
  current_name : option string;
  confirm_sensitive : bool;
}.

Definition set_current_name (name : string) (self : ScriptSaverDialog)
  : ScriptSaverDialog :=
  {| file_type := file_type self;
     filename := filename self;
     current_name := Some name;
     confirm_sensitive := confirm_sensitive self |}.

Definition confirm_set_sensitive (b : bool) (self : ScriptSaverDialog)
  : ScriptSaverDialog :=
  {| file_type := file_type self;
     filename := filename self;
     current_name := current_name self;
     confirm_sensitive := b |}.

(** [ScriptSaverDialog.update_file_suggestion]; [now] is the clock's
    reading at the call. *)
Definition update_file_suggestion (now : struct_time)
           (self : ScriptSaverDialog) : ScriptSaverDialog :=
  let file_type := or_str (file_type self) "sh" in
  set_current_name (strftime ("rmlint-%FT%T%z." ++ file_type) now) self.

(** [ScriptSaverDialog.__init__]: the format button starts on ['sh'], the
    Save button insensitive, and a name is suggested.  [shown] is the
    file name the fresh chooser reports. *)
Definition ScriptSaverDialog_init (now : struct_time) (shown : option string)
  : ScriptSaverDialog :=
  update_file_suggestion now
    {| file_type := Some "sh";
       filename := shown;
       current_name := None;
       confirm_sensitive := false |}.

(** [ScriptSaverDialog.on_file_type_changed]. *)
Definition on_file_type_changed (now : struct_time)
           (self : ScriptSaverDialog) : Py.result ScriptSaverDialog :=
  match filename self with
  | None => Ok (update_file_suggestion now self)
  | Some current_path =>
      if negb (truthy (Some current_path)) then
        Ok (update_file_suggestion now self)
      else
        except_ValueError
          (parts <- unpack2 (rsplit1 "." current_path) ;;
           let '(path, ext) := parts in
           name <- str_add (path ++ ".") (file_type self) ;;
           Ok (set_current_name (or_str (Some name) "") self))
          (Ok self)
  end.

(** [ScriptSaverDialog.on_selection_changed]. *)
Definition on_selection_changed (self : ScriptSaverDialog)
  : ScriptSaverDialog :=
  confirm_set_sensitive (truthy (filename self)) self.

(** What reaches the dialog: the chooser reports a new selection (and
    with it a new file name), or the format button a new choice. *)
Inductive DialogEvent : Type :=
| SelectionChanged (shown : option string)
| FileTypeChanged (choice : option string) (now : struct_time).

Definition select (shown : option string) (self : ScriptSaverDialog)
  : ScriptSaverDialog :=
  {| file_type := file_type self;
     filename := shown;
     current_name := current_name self;
     confirm_sensitive := confirm_sensitive self |}.

Definition choose (choice : option string) (self : ScriptSaverDialog)
  : ScriptSaverDialog :=
  {| file_type := choice;
     filename := filename self;
     current_name := current_name self;
     confirm_sensitive := confirm_sensitive self |}.

Definition dialog_step (e : DialogEvent) (self : ScriptSaverDialog)
  : Py.result ScriptSaverDialog :=
  match e with
  | SelectionChanged shown => Ok (on_selection_changed (select shown self))
  | FileTypeChanged choice now => on_file_type_changed now (choose choice self)
  end.

(** ** RunButton *)

(** The two style classes the button switches between. *)
Record StyleContext : Type := {
  suggested_action : bool;
  destructive_action : bool;
}.

Definition no_style : StyleContext :=
  {| suggested_action := false; destructive_action := false |}.

(** [dry_run] is the GObject property, [state_active] the toggle's
    [active] property; the two are bound in both directions. *)
Record RunButton : Type := {
  dry_run : bool;
  state_active : bool;
  sensitive : bool;
  button_style : StyleContext;
  state_style : StyleContext;
}.

(** The loop body of [_toggle_dry_run] on one style context. *)
Definition restyle (active : bool) (ctx : StyleContext) : StyleContext :=
  if negb active then
    {| suggested_action := false; destructive_action := true |}
  else
    {| suggested_action := true; destructive_action := false |}.

(** [RunButton._toggle_dry_run(self.state)]. *)
Definition _toggle_dry_run (self : RunButton) : RunButton :=
  {| dry_run := dry_run self;
     state_active := state_active self;
     sensitive := sensitive self;
     button_style := restyle (state_active self) (button_style self);
     state_style := restyle (state_active self) (state_style self) |}.

(** [RunButton.set_sensitive]. *)
Definition set_sensitive (is_sensitive : bool) (self : RunButton) : RunButton :=
  let self :=
    {| dry_run := dry_run self;
       state_active := state_active self;
       sensitive := is_sensitive;
       button_style := button_style self;
       state_style := state_style self |} in
  if negb is_sensitive then
    {| dry_run := dry_run self;
       state_active := state_active self;
       sensitive := sensitive self;
       button_style := button_style self;
       state_style := no_style |}
  else _toggle_dry_run self.

(** The toggle is set to [active]; the binding carries the value over to
    [dry_run] and the [toggled] handler restyles. *)
Definition state_set_active (active : bool) (self : RunButton) : RunButton :=
  _toggle_dry_run
    {| dry_run := active;
       state_active := active;
       sensitive := sensitive self;
       button_style := button_style self;
       state_style := state_style self |}.

(** [RunButton.__init__]. *)
Definition RunButton_init : RunButton :=
  _toggle_dry_run
    (state_set_active true
       {| dry_run := true;
          state_active := false;
          sensitive := true;
          button_style := no_style;
          state_style := no_style |}).

(** ** EditorView *)

(** The children of [self.stack]. *)
Inductive Screen : Type :=
| danger
| progressing
| finished.

(** The children of [self.left_stack]. *)
Inductive LeftScreen : Type :=
| script_page
| chooser_page
| list_page.

(** The children of the icon stack. *)
Inductive Icon : Type :=
| warning_icon
| danger_icon.

(** The [Script] of [shredder.runner] as this view uses it: its text, the
    handlers connected to its two signals (a [line-read] handler is known
    by the model it was bound to) and the [run] requests it was given,
    oldest first. *)
Record Script : Type := {
  script_text : string;
  line_read_handlers : list TreeModel;
  script_finished_handlers : nat;
  run_requests : list bool;
}.

Definition connect_line_read (model : TreeModel) (s : Script) : Script :=
  {| script_text := script_text s;
     line_read_handlers := line_read_handlers s ++ [model];
     script_finished_handlers := script_finished_handlers s;
     run_requests := run_requests s |}.

Definition connect_script_finished (s : Script) : Script :=
  {| script_text := script_text s;
     line_read_handlers := line_read_handlers s;
     script_finished_handlers := S (script_finished_handlers s);
     run_requests := run_requests s |}.

(** [script.run(dry_run=flag)]. *)
Definition script_run (flag : bool) (s : Script) : Script :=
  {| script_text := script_text s;
     line_read_handlers := line_read_handlers s;
     script_finished_handlers := script_finished_handlers s;
     run_requests := run_requests s ++ [flag] |}.

Record EditorView : Type := {
  script : Script;
  stack : Screen;
  left_stack : LeftScreen;
  run_button : RunButton;
  icon_stack : Icon;
  run_label : RunningLabel;
  buffer_text : string;
}.

Definition with_script (s : Script) (v : EditorView) : EditorView :=
  {| script := s; stack := stack v; left_stack := left_stack v;
     run_button := run_button v; icon_stack := icon_stack v;
     run_label := run_label v; buffer_text := buffer_text v |}.

Definition with_stack (s : Screen) (v : EditorView) : EditorView :=
  {| script := script v; stack := s; left_stack := left_stack v;
     run_button := run_button v; icon_stack := icon_stack v;
     run_label := run_label v; buffer_text := buffer_text v |}.

Definition with_left_stack (l : LeftScreen) (v : EditorView) : EditorView :=
  {| script := script v; stack := stack v; left_stack := l;
     run_button := run_button v; icon_stack := icon_stack v;
     run_label := run_label v; buffer_text := buffer_text v |}.

Definition with_run_button (b : RunButton) (v : EditorView) : EditorView :=
  {| script := script v; stack := stack v; left_stack := left_stack v;
     run_button := b; icon_stack := icon_stack v;
     run_label := run_label v; buffer_text := buffer_text v |}.

Definition with_icon_stack (i : Icon) (v : EditorView) : EditorView :=
  {| script := script v; stack := stack v; left_stack := left_stack v;
     run_button := run_button v; icon_stack := i;
     run_label := run_label v; buffer_text := buffer_text v |}.

Definition with_run_label (l : RunningLabel) (v : EditorView) : EditorView :=
  {| script := script v; stack := stack v; left_stack := left_stack v;
     run_button := run_button v; icon_stack := icon_stack v;
     run_label := l; buffer_text := buffer_text v |}.

Definition with_buffer_text (t : string) (v : EditorView) : EditorView :=
  {| script := script v; stack := stack v; left_stack := left_stack v;
     run_button := run_button v; icon_stack := icon_stack v;
     run_label := run_label v; buffer_text := t |}.

(** [EditorView.switch_to_script]. *)
Definition switch_to_script (self : EditorView) : EditorView :=
  let self := with_left_stack script_page self in
  let self := with_buffer_text (script_text (script self)) self in
  with_stack danger self.

(** [EditorView._switch_back]. *)
Definition _switch_back (self : EditorView) : EditorView :=
  let self := with_run_button (set_sensitive false (run_button self)) self in
  switch_to_script self.

(** [EditorView.on_run_script_clicked]; [model] is the runner view's
    model at the click. *)
Definition on_run_script_clicked (model : TreeModel) (self : EditorView)
  : EditorView :=
  let self := with_stack progressing self in
  let self := with_left_stack list_page self in
  let self := with_script (connect_line_read model (script self)) self in
  let self := with_script (connect_script_finished (script self)) self in
  with_script (script_run true (script self)) self.

(** [EditorView.on_view_enter]; [run_script] is the runner view's script,
    [None] when it has none. *)
Definition on_view_enter (run_script : option Script) (self : EditorView)
  : EditorView :=
  let self := with_run_button (set_sensitive true (run_button self)) self in
  let self :=
    match run_script with
    | Some s => with_script s self
    | None => self
    end in
  switch_to_script self.

(** The [notify::dry-run] handler connected in [EditorView.__init__]. *)
Definition on_notify_dry_run (self : EditorView) : EditorView :=
  with_icon_stack
    (if dry_run (run_button self) then warning_icon else danger_icon) self.

(** The [script-finished] handler connected by a run click. *)
Definition on_script_finished (self : EditorView) : EditorView :=
  with_stack finished self.

Section EditorView.
Context `{Runtime}.

(** The [line-read] handler connected by a run click. *)
Definition on_line_read (model : TreeModel) (prefix line : string)
           (self : EditorView) : Py.result EditorView :=
  label <- push (Some model) prefix line (run_label self) ;;
  Ok (with_run_label label self).

(** [EditorView.__init__]; [dummy] is what [Script.create_dummy()]
    returns. *)
Definition EditorView_init (dummy : Script) : Py.result EditorView :=
  label <- RunningLabel_init ;;
  Ok {| script := dummy;
        stack := danger;
        left_stack := script_page;
        run_button := RunButton_init;
        icon_stack := warning_icon;
        run_label := label;
        buffer_text := "" |}.

(** *** The event loop

    What the toolkit, the application and the script runner send to the
    view.  A click reaches a widget only when the widget is sensitive and
    sits on the visible child of its stack: the run button and its toggle
    are on [danger], the go-back button on [finished]. *)
Inductive Event : Type :=
| RunClicked (model : TreeModel)
| DryRunToggled
| GoBackClicked
| ViewEnter (run_script : option Script)
| LineRead (prefix line : string)
| ScriptFinished.

Definition is_view_enter (e : Event) : bool :=
  match e with
  | ViewEnter _ => true
  | _ => false
  end.

(** Events that neither end a run nor re-enter the view: the user's
    clicks and the lines the script reports. *)
Definition during_run (e : Event) : bool :=
  match e with
  | ViewEnter _ | ScriptFinished => false
  | _ => true
  end.

Definition run_control_reachable (self : EditorView) : bool :=
  sensitive (run_button self)
  && match stack self with danger => true | _ => false end.

Definition go_back_reachable (self : EditorView) : bool :=
  match stack self with finished => true | _ => false end.

(** Every connected [line-read] handler runs, in connection order. *)
Fixpoint emit_line_read (handlers : list TreeModel) (prefix line : string)
         (self : EditorView) : Py.result EditorView :=
  match handlers with
  | [] => Ok self
  | model :: rest =>
      self <- on_line_read model prefix line self ;;
      emit_line_read rest prefix line self
  end.

(** Every connected [script-finished] handler runs. *)
Fixpoint emit_script_finished (handlers : nat) (self : EditorView)
  : EditorView :=
  match handlers with
  | O => self
  | S rest => emit_script_finished rest (on_script_finished self)
  end.

Definition deliver (e : Event) (self : EditorView) : Py.result EditorView :=
  match e with
  | RunClicked model =>
      if run_control_reachable self
      then Ok (on_run_script_clicked model self)
      else Ok self
  | DryRunToggled =>
      if run_control_reachable self
      then
        let button :=
          state_set_active (negb (state_active (run_button self)))
                           (run_button self) in
        Ok (on_notify_dry_run (with_run_button button self))
      else Ok self
  | GoBackClicked =>
      if go_back_reachable self then Ok (_switch_back self) else Ok self
  | ViewEnter run_script => Ok (on_view_enter run_script self)
  | LineRead prefix line =>
      emit_line_read (line_read_handlers (script self)) prefix line self
  | ScriptFinished =>
      Ok (emit_script_finished (script_finished_handlers (script self)) self)
  end.

Fixpoint deliver_all (events : list Event) (self : EditorView)
  : Py.result EditorView :=
  match events with
  | [] => Ok self
  | e :: rest =>
      self <- deliver e self ;;
      deliver_all rest self
  end.

End EditorView.

(** ** A runtime to compute with

    An instance of [Runtime] for running the model on concrete input:
    lower-casing of the ASCII letters, the escapes of
    [g_markup_escape_text] for the five markup characters (control
    characters, which GLib writes as character references, are copied),
    and the byte count written out in full. *)

Definition ascii_lower (c : ascii) : ascii :=
  let n := nat_of_ascii c in
  if Nat.leb 65 n && Nat.leb n 90 then ascii_of_nat (n + 32) else c.

Fixpoint lower (s : string) : string :=
  match s with
  | EmptyString => EmptyString
  | String c rest => String (ascii_lower c) (lower rest)
  end.

Definition escape_char (c : ascii) : string :=
  if Ascii.eqb c "&" then "&amp;"
  else if Ascii.eqb c "<" then "&lt;"
  else if Ascii.eqb c ">" then "&gt;"
  else if Ascii.eqb c "'" then "&apos;"
  else if Ascii.eqb c (ascii_of_nat 34) then "&quot;"
  else String c EmptyString.

Fixpoint escape (s : string) : string :=
  match s with
  | EmptyString => EmptyString
  | String c rest => escape_char c ++ escape rest
  end.

Definition plain_bytes (size : Z) : string :=
  decimal (Z.to_nat size) ++ " B".

Definition sample_runtime : Runtime :=
  {| str_lower := lower;
     size_to_human_readable := plain_bytes;
     markup_escape_text := escape |}.

(** A model that knows one path, [/tmp/a], of 4096 bytes. *)
Definition sample_model : TreeModel :=
  {| lookup_by_path := fun path =>
       if path =? "/tmp/a" then Some {| column_SIZE := 4096 |} else None |}.

(** The label as [RunningLabel.__init__] leaves it under [sample_runtime]. *)
Definition fresh_label : RunningLabel :=
  {| size_sum := 0; markup := REMOVED_LABEL "" "0 B" "" |}.

Definition sample_script : Script :=
  {| script_text := "#!/bin/sh";
     line_read_handlers := [];
     script_finished_handlers := 0;
     run_requests := [] |}.

(** The view as [EditorView.__init__] leaves it under [sample_runtime]. *)
Definition fresh_view : EditorView :=
  {| script := sample_script;
     stack := danger;
     left_stack := script_page;
     run_button := RunButton_init;
     icon_stack := warning_icon;
     run_label := fresh_label;
     buffer_text := "" |}.

(** 4 November 2026, 07:26:05, one hour east of UTC. *)
Definition sample_time : struct_time :=
  {| tm_year := 2026; tm_mon := 11; tm_mday := 4;
     tm_hour := 7; tm_min := 26; tm_sec := 5; tm_gmtoff := 3600 |}.

(** [suffix] ends [s]. *)
Fixpoint ends_with (suffix s : string) : bool :=
  (s =? suffix)
  || match s with
     | EmptyString => false
     | String _ rest => ends_with suffix rest
     end.

(** ** What a run adds up to *)

Section Accounting.
Context `{Runtime}.

(** What one event adds to the sum through a handler bound to [model]:
    the size of the entry its path resolves to, and nothing for a
    "keeping" event, an unknown path or a missing model. *)
Definition counted (model : option TreeModel) (prefix path : string) : Z :=
  if is_keeping prefix then 0%Z
  else
    match model with
    | Some model =>
        match lookup_by_path model path with
        | Some node => column_SIZE node
        | None => 0%Z
        end
    | None => 0%Z
    end.

(** The same over a stream of events. *)
Fixpoint counted_all (model : option TreeModel)
         (events : list (string * string)) : Z :=
  match events with
  | [] => 0%Z
  | (prefix, path) :: rest =>
      (counted model prefix path + counted_all model rest)%Z
  end.

(** What one event adds through every connected handler. *)
Fixpoint counted_by (handlers : list TreeModel) (prefix path : string) : Z :=
  match handlers with
  | [] => 0%Z
  | model :: rest =>
      (counted (Some model) prefix path + counted_by rest prefix path)%Z
  end.

End Accounting.

(** Every entry of the model has a size that is not negative. *)
Definition sizes_nonnegative (model : option TreeModel) : Prop :=
  match model with
  | Some model =>
      forall path node,
        lookup_by_path model path = Some node -> (0 <= column_SIZE node)%Z
  | None => True
  end.

(** ** How the run button looks *)

(** The style a dry run (suggested action) or a real run (destructive
    action) gives a widget. *)
Definition style_for (dry : bool) : StyleContext :=
  {| suggested_action := dry; destructive_action := negb dry |}.

(** The toggle agrees with the property, the button carries the style of
    the run mode, and the toggle does so as long as the box is
    sensitive. *)
Definition button_consistent (b : RunButton) : Prop :=
  state_active b = dry_run b
  /\ button_style b = style_for (dry_run b)
  /\ state_style b = if sensitive b then style_for (dry_run b) else no_style.

(** The icon above the button agrees with the run mode as well. *)
Definition view_consistent (v : EditorView) : Prop :=
  button_consistent (run_button v)
  /\ icon_stack v = if dry_run (run_button v) then warning_icon
                    else danger_icon.

(** ** How the screens follow each other *)

Inductive transition : Event -> Screen -> Screen -> Prop :=
| run_starts model : transition (RunClicked model) danger progressing
| run_ends from : transition ScriptFinished from finished
| goes_back : transition GoBackClicked finished danger
| view_entered run_script from : transition (ViewEnter run_script) from danger.

Definition is_line_read (e : Event) : bool :=
  match e with
  | LineRead _ _ => true
  | _ => false
  end.

(** The event hands the view another script. *)
Definition brings_script (e : Event) : bool :=
  match e with
  | ViewEnter (Some _) => true
  | _ => false
  end.

(** * Properties *)

(** ** Strings *)

Lemma append_assoc (a b c : string) : (a ++ b) ++ c = a ++ (b ++ c).
Proof.
  induction a as [|x a IH]; simpl; [reflexivity|].
  now rewrite IH.
Qed.

Lemma ends_with_append (a suffix : string) :
  ends_with suffix (a ++ suffix) = true.
Proof.
  induction a as [|x a IH]; simpl.
  - destruct suffix; simpl; rewrite ?String.eqb_refl, ?Ascii.eqb_refl;
      reflexivity.
  - rewrite IH. apply orb_true_r.
Qed.

(** ** RunningLabel.push *)

Section PushFacts.
Context `{Runtime}.

Lemma push_keeping model prefix path self :
  is_keeping prefix = true ->
  push model prefix path self = Ok self.
Proof.
  intros Hk. unfold push. now rewrite Hk.
Qed.

Lemma push_found model prefix path self node :
  is_keeping prefix = false ->
  lookup_by_path model path = Some node ->
  push (Some model) prefix path self =
  Ok (add_size (column_SIZE node)
        (set_markup
           (REMOVED_LABEL prefix (size_to_human_readable (size_sum self))
              (markup_escape_text path)) self)).
Proof.
  intros Hk Hn. unfold push. rewrite Hk, Hn. reflexivity.
Qed.

Lemma push_missing model prefix path self :
  is_keeping prefix = false ->
  lookup_by_path model path = None ->
  push (Some model) prefix path self =
  Ok (set_markup
        (REMOVED_LABEL prefix (size_to_human_readable (size_sum self))
           (markup_escape_text path)) self).
Proof.
  intros Hk Hn. unfold push. rewrite Hk, Hn. reflexivity.
Qed.

(** The guard on [node] keeps the subscript from ever raising. *)
Lemma push_returns model prefix path self :
  returns (push model prefix path self).
Proof.
  unfold returns, push.
  destruct (is_keeping prefix); [eauto|].
  destruct model as [model|]; [|eauto].
  destruct (lookup_by_path model path); simpl; eauto.
Qed.

Lemma push_all_keeping model events self :
  Forall (fun e => is_keeping (fst e) = true) events ->
  push_all model events self = Ok self.
Proof.
  induction 1 as [|[prefix path] rest Hk _ IH]; simpl; [reflexivity|].
  simpl in Hk. rewrite (push_keeping _ _ _ _ Hk). simpl. exact IH.
Qed.

(** C3: an event whose prefix is not "keeping" (whatever the case of its
    letters) adds exactly the size of the entry its path resolves to, and
    leaves the sum alone when the path does not resolve; in both cases
    [push] returns, it does not raise. *)
Theorem push_adds_resolved_size (model : TreeModel) prefix path self :
  is_keeping prefix = false ->
  exists self',
    push (Some model) prefix path self = Ok self'
    /\ size_sum self' =
       match lookup_by_path model path with
       | Some node => (size_sum self + column_SIZE node)%Z
       | None => size_sum self
       end.
Proof.
  intros Hk.
  destruct (lookup_by_path model path) as [node|] eqn:Hn.
  - eexists. split; [apply (push_found _ _ _ _ node Hk Hn)|reflexivity].
  - eexists. split; [apply (push_missing _ _ _ _ Hk Hn)|reflexivity].
Qed.

(** C4: a sequence of events that are all "keeping" events leaves the sum
    where it was. *)
Theorem keeping_events_preserve_size_sum model events self :
  Forall (fun e => is_keeping (fst e) = true) events ->
  exists self',
    push_all model events self = Ok self'
    /\ size_sum self' = size_sum self.
Proof.
  intros Hall. exists self. split; [|reflexivity].
  now apply push_all_keeping.
Qed.

(** C5, as the code has it: a "keeping" event is dropped; neither the
    label's text nor the sum changes. *)
Theorem keeping_event_is_ignored model prefix path self :
  is_keeping prefix = true ->
  exists self',
    push model prefix path self = Ok self'
    /\ markup self' = markup self
    /\ size_sum self' = size_sum self.
Proof.
  intros Hk. exists self. rewrite (push_keeping _ _ _ _ Hk). auto.
Qed.

(** C9: on an event that is not a "keeping" event and whose path
    resolves, the label is rendered from the sum as it was before the
    entry's size is added: the size shown is that of the new sum less the
    entry just counted. *)
Theorem label_shows_sum_before_add (model : TreeModel) prefix path self node :
  is_keeping prefix = false ->
  lookup_by_path model path = Some node ->
  exists self',
    push (Some model) prefix path self = Ok self'
    /\ size_sum self' = (size_sum self + column_SIZE node)%Z
    /\ markup self' =
       REMOVED_LABEL prefix
         (size_to_human_readable (size_sum self' - column_SIZE node)%Z)
         (markup_escape_text path)
    /\ markup self' =
       REMOVED_LABEL prefix (size_to_human_readable (size_sum self))
         (markup_escape_text path).
Proof.
  intros Hk Hn. eexists. split; [apply (push_found _ _ _ _ node Hk Hn)|].
  simpl. repeat split.
  f_equal. f_equal. lia.
Qed.

End PushFacts.

Lemma REMOVED_LABEL_tail (t s p : string) :
  REMOVED_LABEL t s p = ("<big>" ++ s) ++ label_tail t p.
Proof.
  rewrite append_assoc. reflexivity.
Qed.

Section PushSamples.
#[local] Existing Instance sample_runtime.

Example fresh_label_init : RunningLabel_init = Ok fresh_label.
Proof. reflexivity. Qed.

Example push_removed_sample :
  push (Some sample_model) "removed" "/tmp/a" fresh_label =
  Ok {| size_sum := 4096; markup := REMOVED_LABEL "removed" "0 B" "/tmp/a" |}.
Proof. reflexivity. Qed.

Lemma push_adds_resolved_size_witness :
  is_keeping "removed" = false
  /\ exists self',
      push (Some sample_model) "removed" "/tmp/a" fresh_label = Ok self'
      /\ size_sum self' =
         match lookup_by_path sample_model "/tmp/a" with
         | Some node => (size_sum fresh_label + column_SIZE node)%Z
         | None => size_sum fresh_label
         end.
Proof.
  split; [reflexivity|].
  apply (push_adds_resolved_size sample_model "removed" "/tmp/a" fresh_label).
  reflexivity.
Defined.

Lemma keeping_events_preserve_size_sum_witness :
  Forall (fun e => is_keeping (fst e) = true)
         [("keeping", "/tmp/a"); ("Keeping", "/tmp/b")]
  /\ exists self',
      push_all (Some sample_model)
               [("keeping", "/tmp/a"); ("Keeping", "/tmp/b")] fresh_label
      = Ok self'
      /\ size_sum self' = size_sum fresh_label.
Proof.
  assert (Hall : Forall (fun e => is_keeping (fst e) = true)
                        [("keeping", "/tmp/a"); ("Keeping", "/tmp/b")])
    by (repeat constructor).
  split; [exact Hall|].
  exact (keeping_events_preserve_size_sum (Some sample_model) _ fresh_label
           Hall).
Defined.

Lemma keeping_event_is_ignored_witness :
  is_keeping "Keeping" = true
  /\ exists self',
      push (Some sample_model) "Keeping" "/tmp/a" fresh_label = Ok self'
      /\ markup self' = markup fresh_label
      /\ size_sum self' = size_sum fresh_label.
Proof.
  split; [reflexivity|].
  apply (keeping_event_is_ignored (Some sample_model) "Keeping" "/tmp/a"
           fresh_label).
  reflexivity.
Defined.

(** C5, as the claim words it, fails: after a "Keeping" event for
    [/tmp/a] the label still holds what [__init__] rendered, which shows
    neither the prefix nor the path of the event. *)
Lemma keeping_event_not_shown :
  is_keeping "Keeping" = true
  /\ match push (Some sample_model) "Keeping" "/tmp/a" fresh_label with
     | Ok self' => ~ shows (markup self') "Keeping" "/tmp/a"
     | Raise _ => False
     end.
Proof.
  split; [reflexivity|].
  change (push (Some sample_model) "Keeping" "/tmp/a" fresh_label)
    with (Ok fresh_label).
  intros [s Hs].
  rewrite REMOVED_LABEL_tail in Hs.
  apply (f_equal (ends_with (label_tail "Keeping" "/tmp/a"))) in Hs.
  rewrite ends_with_append in Hs.
  vm_compute in Hs. discriminate Hs.
Qed.

Lemma label_shows_sum_before_add_witness :
  is_keeping "removed" = false
  /\ lookup_by_path sample_model "/tmp/a" = Some {| column_SIZE := 4096 |}
  /\ exists self',
      push (Some sample_model) "removed" "/tmp/a" fresh_label = Ok self'
      /\ size_sum self' = (size_sum fresh_label + 4096)%Z
      /\ markup self' =
         REMOVED_LABEL "removed"
           (size_to_human_readable (size_sum self' - 4096)%Z)
           (markup_escape_text "/tmp/a")
      /\ markup self' =
         REMOVED_LABEL "removed"
           (size_to_human_readable (size_sum fresh_label))
           (markup_escape_text "/tmp/a").
Proof.
  split; [reflexivity|]. split; [reflexivity|].
  apply (label_shows_sum_before_add sample_model "removed" "/tmp/a"
           fresh_label {| column_SIZE := 4096 |}); reflexivity.
Defined.

End PushSamples.

(** ** The save dialog *)

Lemma strftime_plain (s : string) (t : struct_time) :
  contains "%" s = false -> strftime s t = s.
Proof.
  induction s as [|c s IH]; simpl; [reflexivity|].
  intros Hc. apply orb_false_iff in Hc. destruct Hc as [Hc Hs].
  rewrite Hc. now rewrite IH.
Qed.

Lemma strftime_suggestion (now : struct_time) (ext : string) :
  contains "%" ext = false ->
  strftime ("rmlint-%FT%T%z." ++ ext) now = suggestion now ext.
Proof.
  intros Hext. unfold suggestion, timestamp. cbn.
  rewrite (strftime_plain ext now Hext).
  repeat (rewrite append_assoc; simpl). reflexivity.
Qed.

Lemma choices_plain (ext : string) :
  In ext file_type_choices -> contains "%" ext = false.
Proof.
  unfold file_type_choices. simpl.
  intros [<-|[<-|[<-|[]]]]; reflexivity.
Qed.

Lemma rpartition_absent (sep : ascii) (s : string) :
  contains sep s = false -> rpartition sep s = None.
Proof.
  induction s as [|c s IH]; simpl; [reflexivity|].
  intros Hc. apply orb_false_iff in Hc. destruct Hc as [Hc Hs].
  now rewrite (IH Hs), Hc.
Qed.

Lemma rpartition_last (sep : ascii) (base ext : string) :
  contains sep ext = false ->
  rpartition sep (base ++ String sep ext) = Some (base, ext).
Proof.
  intros Hext. induction base as [|c base IH]; simpl.
  - now rewrite (rpartition_absent sep ext Hext), Ascii.eqb_refl.
  - now rewrite IH.
Qed.

Lemma truthy_spec (o : option string) :
  truthy o = true <-> exists s, o = Some s /\ s <> "".
Proof.
  destruct o as [s|]; simpl.
  - rewrite negb_true_iff, String.eqb_neq. split.
    + intros Hs. now exists s.
    + intros [s' [[= <-] Hs]]. exact Hs.
  - split; [discriminate|]. now intros [s [Hs _]].
Qed.

Lemma or_str_dotted (path choice : string) :
  or_str (Some ((path ++ ".") ++ choice)) "" = path ++ "." ++ choice.
Proof.
  rewrite append_assoc. simpl.
  destruct path; reflexivity.
Qed.

Lemma suggest_when_untyped (now : struct_time) (self : ScriptSaverDialog) :
  truthy (filename self) = false ->
  on_file_type_changed now self = Ok (update_file_suggestion now self).
Proof.
  unfold on_file_type_changed. intros Hf.
  destruct (filename self) as [s|]; [|reflexivity].
  now rewrite Hf.
Qed.

Lemma suggested_name (now : struct_time) (self : ScriptSaverDialog) ext :
  In ext file_type_choices ->
  file_type self = Some ext ->
  current_name (update_file_suggestion now self) = Some (suggestion now ext).
Proof.
  intros Hin Hext. unfold update_file_suggestion. rewrite Hext. simpl.
  assert (Hne : (ext =? "") = false).
  { revert Hin. unfold file_type_choices. simpl.
    intros [<-|[<-|[<-|[]]]]; reflexivity. }
  rewrite Hne. f_equal. apply strftime_suggestion. now apply choices_plain.
Qed.

Lemma swap_extension (now : struct_time) (self : ScriptSaverDialog)
      (base old ext : string) :
  filename self = Some (base ++ "." ++ old) ->
  contains "." old = false ->
  file_type self = Some ext ->
  on_file_type_changed now self
  = Ok (set_current_name (base ++ "." ++ ext) self).
Proof.
  intros Hf Hold Hext. unfold on_file_type_changed. rewrite Hf, Hext.
  assert (Ht : truthy (Some (base ++ "." ++ old)) = true).
  { apply truthy_spec. eexists. split; [reflexivity|].
    destruct base; discriminate. }
  rewrite Ht. unfold rsplit1.
  change (base ++ "." ++ old) with (base ++ String "."%char old).
  rewrite (rpartition_last "." base old Hold).
  cbn [negb unpack2 Py.bind str_add except_ValueError].
  now rewrite or_str_dotted.
Qed.

(** C6: the Save button starts insensitive, and after a
    [selection-changed] event it is sensitive exactly when the chooser
    has a file name that is not empty. *)
Theorem confirm_follows_filename :
  (forall now shown,
      confirm_sensitive (ScriptSaverDialog_init now shown) = false)
  /\ (forall shown self,
         exists self',
           dialog_step (SelectionChanged shown) self = Ok self'
           /\ filename self' = shown
           /\ (confirm_sensitive self' = true <->
               exists s, filename self' = Some s /\ s <> "")
           /\ (confirm_sensitive self' = false <->
               filename self' = None \/ filename self' = Some "")).
Proof.
  split; [reflexivity|].
  intros shown self. eexists. split; [reflexivity|]. simpl.
  split; [reflexivity|]. split; [apply truthy_spec|].
  destruct shown as [s|]; simpl.
  - rewrite negb_false_iff, String.eqb_eq. split.
    + intros ->. now right.
    + intros [Hs|[= Hs]]; [discriminate|exact Hs].
  - split; auto.
Qed.

(** C7: with no file name typed the dialog suggests
    [rmlint-<timestamp>.<ext>] for the selected format, at its start and
    again on every change of format; with a name that has an extension, a
    change of format replaces what follows the last dot by the new format
    and keeps what precedes it. *)
Theorem suggestion_and_extension_swap (now : struct_time) :
  (forall self ext,
      In ext file_type_choices ->
      file_type self = Some ext ->
      current_name (update_file_suggestion now self)
      = Some (suggestion now ext))
  /\ (forall shown,
         current_name (ScriptSaverDialog_init now shown)
         = Some (suggestion now "sh"))
  /\ (forall self ext,
         In ext file_type_choices ->
         truthy (filename self) = false ->
         exists self',
           dialog_step (FileTypeChanged (Some ext) now) self = Ok self'
           /\ current_name self' = Some (suggestion now ext))
  /\ (forall self base old ext,
         filename self = Some (base ++ "." ++ old) ->
         contains "." old = false ->
         exists self',
           dialog_step (FileTypeChanged (Some ext) now) self = Ok self'
           /\ current_name self' = Some (base ++ "." ++ ext)).
Proof.
  split; [|split; [|split]].
  - intros self ext Hin Hext. now apply suggested_name.
  - intros shown. unfold ScriptSaverDialog_init.
    apply suggested_name; [simpl; auto|reflexivity].
  - intros self ext Hin Hf. eexists. split.
    + simpl. apply suggest_when_untyped. exact Hf.
    + now apply suggested_name.
  - intros self base old ext Hf Hold. eexists. split.
    + apply (swap_extension now (choose (Some ext) self) base old ext);
        [exact Hf|exact Hold|reflexivity].
    + reflexivity.
Qed.

(** When the path the chooser reports has no dot anywhere, folders
    included, a change of format returns without raising and leaves the
    dialog as it was, whatever the format button reports. *)
Theorem no_extension_left_alone (now : struct_time)
        (self : ScriptSaverDialog) (name : string) :
  filename self = Some name ->
  name <> "" ->
  contains "." name = false ->
  on_file_type_changed now self = Ok self
  /\ forall choice,
      exists self',
        dialog_step (FileTypeChanged choice now) self = Ok self'
        /\ filename self' = filename self
        /\ current_name self' = current_name self
        /\ confirm_sensitive self' = confirm_sensitive self.
Proof.
  intros Hf Hne Hdot.
  assert (Hkeep : forall d, filename d = Some name ->
                            on_file_type_changed now d = Ok d).
  { intros d Hd. unfold on_file_type_changed. rewrite Hd.
    assert (Ht : truthy (Some name) = true).
    { apply truthy_spec. now exists name. }
    rewrite Ht. simpl. unfold rsplit1.
    rewrite (rpartition_absent "." name Hdot). reflexivity. }
  split; [now apply Hkeep|].
  intros choice. eexists. split.
  - simpl. apply Hkeep. exact Hf.
  - simpl. auto.
Qed.

Lemma confirm_follows_filename_witness :
  let fresh := ScriptSaverDialog_init sample_time None in
  confirm_sensitive fresh = false
  /\ (exists self',
         dialog_step (SelectionChanged (Some "foo.sh")) fresh = Ok self'
         /\ confirm_sensitive self' = true)
  /\ (exists self',
         dialog_step (SelectionChanged (Some "")) fresh = Ok self'
         /\ confirm_sensitive self' = false).
Proof.
  intros fresh. destruct confirm_follows_filename as [Hinit Hsel].
  split; [exact (Hinit sample_time None)|]. split.
  - destruct (Hsel (Some "foo.sh") fresh) as [self' [Hstep [Hf [Hon _]]]].
    exists self'. split; [exact Hstep|].
    apply Hon. exists "foo.sh". split; [exact Hf|discriminate].
  - destruct (Hsel (Some "") fresh) as [self' [Hstep [Hf [_ Hoff]]]].
    exists self'. split; [exact Hstep|].
    apply Hoff. right. exact Hf.
Defined.

Lemma suggestion_and_extension_swap_witness :
  let fresh := ScriptSaverDialog_init sample_time None in
  let foo_sh :=
    {| file_type := Some "sh"; filename := Some "foo.sh";
       current_name := Some "foo.sh"; confirm_sensitive := true |} in
  In "json" file_type_choices
  /\ file_type (choose (Some "json") fresh) = Some "json"
  /\ truthy (filename fresh) = false
  /\ filename foo_sh = Some ("foo" ++ "." ++ "sh")
  /\ contains "." "sh" = false
  /\ current_name (update_file_suggestion sample_time
                     (choose (Some "json") fresh))
     = Some "rmlint-2026-11-04T07:26:05+0100.json"
  /\ current_name fresh = Some "rmlint-2026-11-04T07:26:05+0100.sh"
  /\ (exists self',
         dialog_step (FileTypeChanged (Some "json") sample_time) fresh
         = Ok self'
         /\ current_name self' = Some "rmlint-2026-11-04T07:26:05+0100.json")
  /\ (exists self',
         dialog_step (FileTypeChanged (Some "json") sample_time) foo_sh
         = Ok self'
         /\ current_name self' = Some "foo.json").
Proof.
  intros fresh foo_sh.
  assert (Hin : In "json" file_type_choices) by (simpl; auto).
  destruct (suggestion_and_extension_swap sample_time)
    as [Hsuggest [Hinit [Hagain Hswap]]].
  split; [exact Hin|]. split; [reflexivity|]. split; [reflexivity|].
  split; [reflexivity|]. split; [reflexivity|]. split; [|split; [|split]].
  - exact (Hsuggest (choose (Some "json") fresh) "json" Hin eq_refl).
  - exact (Hinit None).
  - exact (Hagain fresh "json" Hin eq_refl).
  - exact (Hswap foo_sh "foo" "sh" "json" eq_refl eq_refl).
Defined.

(** C8 fails on the code: the chooser reports the whole path, and the
    handler splits it at its last dot wherever that dot is.  For the name
    [Makefile], typed without an extension in the folder
    [/home/john.doe], a change of format to [json] sets the name to
    [/home/john.json]: the typed name is not left as it was. *)
Theorem name_without_extension_rewritten :
  let typed := "Makefile" in
  let chooser :=
    {| file_type := Some "json";
       filename := Some ("/home/john.doe/" ++ typed);
       current_name := Some typed;
       confirm_sensitive := true |} in
  contains "." typed = false
  /\ on_file_type_changed sample_time chooser
     = Ok (set_current_name "/home/john.json" chooser)
  /\ on_file_type_changed sample_time chooser <> Ok chooser
  /\ dialog_step (FileTypeChanged (Some "json") sample_time) chooser
     = Ok (set_current_name "/home/john.json" chooser).
Proof.
  intros typed chooser.
  split; [reflexivity|]. split; [reflexivity|]. split; [|reflexivity].
  discriminate.
Qed.

Lemma no_extension_left_alone_witness :
  let makefile :=
    {| file_type := Some "sh"; filename := Some "Makefile";
       current_name := Some "Makefile"; confirm_sensitive := true |} in
  on_file_type_changed sample_time makefile = Ok makefile
  /\ forall choice,
      exists self',
        dialog_step (FileTypeChanged choice sample_time) makefile = Ok self'
        /\ filename self' = filename makefile
        /\ current_name self' = current_name makefile
        /\ confirm_sensitive self' = confirm_sensitive makefile.
Proof.
  intros makefile.
  apply (no_extension_left_alone sample_time makefile "Makefile");
    [reflexivity|discriminate|reflexivity].
Defined.

(** ** The editor view *)

Section ViewFacts.
Context `{Runtime}.

Lemma run_requests_after_click model self :
  run_requests (script (on_run_script_clicked model self))
  = (run_requests (script self) ++ [true])%list.
Proof. reflexivity. Qed.

Lemma emit_line_read_frame handlers prefix line self :
  exists self',
    emit_line_read handlers prefix line self = Ok self'
    /\ stack self' = stack self
    /\ run_button self' = run_button self
    /\ script self' = script self.
Proof.
  revert self. induction handlers as [|model rest IH]; intros self; simpl.
  - eauto.
  - unfold on_line_read.
    destruct (push_returns (Some model) prefix line (run_label self))
      as [label ->].
    simpl. destruct (IH (with_run_label label self)) as [self' [-> Hframe]].
    exists self'. split; [reflexivity|exact Hframe].
Qed.

Lemma emit_script_finished_frame handlers self :
  run_button (emit_script_finished handlers self) = run_button self
  /\ script (emit_script_finished handlers self) = script self.
Proof.
  revert self. induction handlers as [|n IH]; intros self; simpl; [auto|].
  destruct (IH (on_script_finished self)) as [-> ->]. auto.
Qed.

Lemma emit_script_finished_stack handlers self :
  stack (emit_script_finished (S handlers) self) = finished.
Proof.
  revert self. induction handlers as [|n IH]; intros self; [reflexivity|].
  exact (IH (on_script_finished self)).
Qed.

Lemma hidden_while_progressing self :
  stack self = progressing ->
  run_control_reachable self = false /\ go_back_reachable self = false.
Proof.
  unfold run_control_reachable, go_back_reachable. intros ->.
  now rewrite andb_false_r.
Qed.

(** While [progressing] is shown, clicks and reported lines leave the
    screen, the run button and the script as they are. *)
Lemma deliver_during_run e self :
  during_run e = true ->
  stack self = progressing ->
  exists self',
    deliver e self = Ok self'
    /\ stack self' = stack self
    /\ run_button self' = run_button self
    /\ script self' = script self.
Proof.
  intros He Hs. destruct (hidden_while_progressing self Hs) as [Hrun Hback].
  destruct e; try discriminate He; simpl; rewrite ?Hrun, ?Hback; eauto.
  apply emit_line_read_frame.
Qed.

Lemma deliver_all_during_run events self :
  Forall (fun e => during_run e = true) events ->
  stack self = progressing ->
  exists self',
    deliver_all events self = Ok self'
    /\ stack self' = progressing
    /\ run_button self' = run_button self
    /\ script self' = script self.
Proof.
  intros Hall. revert self.
  induction Hall as [|e rest He _ IH]; intros self Hs; simpl; [eauto|].
  destruct (deliver_during_run e self He Hs) as [mid [-> [Hst [Hrb Hsc]]]].
  simpl. rewrite Hs in Hst.
  destruct (IH mid Hst) as [self' [-> [Hst' [Hrb' Hsc']]]].
  exists self'. rewrite Hrb', Hsc'. auto.
Qed.

(** An insensitive run button stays so, and no run is requested, under
    every event but a view entry. *)
Lemma deliver_insensitive e self :
  is_view_enter e = false ->
  sensitive (run_button self) = false ->
  exists self',
    deliver e self = Ok self'
    /\ sensitive (run_button self') = false
    /\ run_requests (script self') = run_requests (script self).
Proof.
  intros He Hs.
  assert (Hrun : run_control_reachable self = false)
    by (unfold run_control_reachable; now rewrite Hs).
  destruct e; try discriminate He; simpl; rewrite ?Hrun; eauto.
  - destruct (go_back_reachable self); eauto.
  - destruct (emit_line_read_frame (line_read_handlers (script self))
                prefix line self) as [self' [-> [_ [Hb Hsc]]]].
    exists self'. now rewrite Hb, Hsc.
  - destruct (emit_script_finished_frame
                (script_finished_handlers (script self)) self) as [Hb Hsc].
    eexists. split; [reflexivity|]. now rewrite Hb, Hsc.
Qed.

Lemma deliver_all_insensitive events self :
  Forall (fun e => is_view_enter e = false) events ->
  sensitive (run_button self) = false ->
  exists self',
    deliver_all events self = Ok self'
    /\ sensitive (run_button self') = false
    /\ run_requests (script self') = run_requests (script self).
Proof.
  intros Hall. revert self.
  induction Hall as [|e rest He _ IH]; intros self Hs; simpl; [eauto|].
  destruct (deliver_insensitive e self He Hs) as [mid [-> [Hs' Hr]]].
  simpl. destruct (IH mid Hs') as [self' [-> [Hs'' Hr']]].
  exists self'. rewrite Hr', Hr. auto.
Qed.

(** A run click does not touch the run button; it shows [progressing].
    Under clicks and reported lines the screen stays [progressing], the
    button is as it was before the click and no further run is
    requested; [script-finished] then shows [finished]. *)
Lemma progressing_until_script_finished (model : TreeModel)
      (self : EditorView) (events : list Event) :
  Forall (fun e => during_run e = true) events ->
  let running := on_run_script_clicked model self in
  stack running = progressing
  /\ run_button running = run_button self
  /\ exists self',
      deliver_all events running = Ok self'
      /\ stack self' = progressing
      /\ run_button self' = run_button self
      /\ run_control_reachable self' = false
      /\ run_requests (script self') = run_requests (script running)
      /\ exists done,
          deliver ScriptFinished self' = Ok done
          /\ stack done = finished
          /\ run_button done = run_button self
          /\ run_control_reachable done = false
          /\ run_requests (script done) = run_requests (script running).
Proof.
  intros Hall running.
  split; [reflexivity|]. split; [reflexivity|].
  destruct (deliver_all_during_run events running Hall eq_refl)
    as [self' [Hrun [Hst [Hrb Hsc]]]].
  exists self'. split; [exact Hrun|]. split; [exact Hst|].
  split; [exact Hrb|].
  split; [apply (hidden_while_progressing self' Hst)|].
  split; [now rewrite Hsc|].
  eexists. split; [reflexivity|].
  destruct (emit_script_finished_frame
              (script_finished_handlers (script self')) self') as [Hb Hs].
  assert (Hfin : stack (emit_script_finished
                          (script_finished_handlers (script self')) self')
                 = finished).
  { rewrite Hsc. apply emit_script_finished_stack. }
  split; [exact Hfin|]. split; [now rewrite Hb|].
  split; [|now rewrite Hs, Hsc].
  unfold run_control_reachable. rewrite Hfin. apply andb_false_r.
Qed.

Lemma during_run_no_view_enter e :
  during_run e = true -> is_view_enter e = false.
Proof. destruct e; simpl; congruence. Qed.

(** A run control that is out of reach stays out of reach, and the
    script with its requests stays as it is, under every event but a
    view entry. *)
Lemma deliver_out_of_reach e self :
  is_view_enter e = false ->
  run_control_reachable self = false ->
  exists self',
    deliver e self = Ok self'
    /\ run_control_reachable self' = false
    /\ script self' = script self.
Proof.
  intros He Hreach. destruct e; try discriminate He; simpl; rewrite ?Hreach.
  - eauto.
  - eauto.
  - destruct (go_back_reachable self); eauto.
  - destruct (emit_line_read_frame (line_read_handlers (script self))
                prefix line self) as [self' [-> [Hst [Hb Hsc]]]].
    exists self'. split; [reflexivity|]. split; [|exact Hsc].
    unfold run_control_reachable in *. now rewrite Hst, Hb.
  - eexists. split; [reflexivity|].
    destruct (emit_script_finished_frame
                (script_finished_handlers (script self)) self) as [Hb Hsc].
    split; [|exact Hsc].
    destruct (script_finished_handlers (script self)) as [|n] eqn:Hn.
    + exact Hreach.
    + unfold run_control_reachable.
      rewrite (emit_script_finished_stack n self). apply andb_false_r.
Qed.

Lemma deliver_all_out_of_reach events self :
  Forall (fun e => is_view_enter e = false) events ->
  run_control_reachable self = false ->
  exists self',
    deliver_all events self = Ok self'
    /\ run_control_reachable self' = false
    /\ script self' = script self.
Proof.
  intros Hall. revert self.
  induction Hall as [|e rest He _ IH]; intros self Hreach; simpl; [eauto|].
  destruct (deliver_out_of_reach e self He Hreach) as [mid [-> [Hmid Hsc]]].
  simpl. destruct (IH mid Hmid) as [self' [-> [Hend Hsc']]].
  exists self'. rewrite Hsc', Hsc. auto.
Qed.

(** C2, as the code has it: a run click does not disable the run button,
    it leaves the button as it is and shows [progressing], while the
    button sits on [danger].  From then on, whatever events arrive short
    of a view entry (clicks, reported lines, [script-finished], going
    back), the button is out of reach and no further run is requested.
    As long as the script has not finished, the screen stays
    [progressing] and the button is as it was before the click;
    [script-finished] then shows [finished]. *)
Theorem run_control_hidden_while_running (model : TreeModel)
        (self : EditorView) (events : list Event) :
  Forall (fun e => is_view_enter e = false) events ->
  let running := on_run_script_clicked model self in
  stack running = progressing
  /\ run_button running = run_button self
  /\ exists self',
      deliver_all events running = Ok self'
      /\ run_control_reachable self' = false
      /\ run_requests (script self') = run_requests (script running)
      /\ (Forall (fun e => during_run e = true) events ->
          stack self' = progressing
          /\ run_button self' = run_button self
          /\ exists done,
              deliver ScriptFinished self' = Ok done
              /\ stack done = finished
              /\ run_button done = run_button self
              /\ run_control_reachable done = false
              /\ run_requests (script done) = run_requests (script running)).
Proof.
  intros Hall running.
  split; [reflexivity|]. split; [reflexivity|].
  assert (Hhidden : run_control_reachable running = false)
    by (apply (hidden_while_progressing running); reflexivity).
  destruct (deliver_all_out_of_reach events running Hall Hhidden)
    as [self' [Hrun [Hreach Hsc]]].
  exists self'. split; [exact Hrun|]. split; [exact Hreach|].
  split; [now rewrite Hsc|].
  intros Hquiet.
  destruct (progressing_until_script_finished model self events Hquiet)
    as [_ [_ [other [Hrun' [Hst [Hb [_ [_ Hdone]]]]]]]].
  fold running in Hrun'. rewrite Hrun in Hrun'.
  injection Hrun' as <-.
  split; [exact Hst|]. split; [exact Hb|]. exact Hdone.
Qed.

(** C10: going back from [finished] makes the run button insensitive
    while showing [danger] again; the button stays insensitive, and no
    run is requested, under every sequence of events without a view
    entry; a view entry makes it sensitive and within reach. *)
Theorem go_back_disables_run (self : EditorView) :
  (stack self = finished ->
   deliver GoBackClicked self = Ok (_switch_back self))
  /\ stack (_switch_back self) = danger
  /\ sensitive (run_button (_switch_back self)) = false
  /\ run_control_reachable (_switch_back self) = false
  /\ (forall events,
         Forall (fun e => is_view_enter e = false) events ->
         exists self',
           deliver_all events (_switch_back self) = Ok self'
           /\ sensitive (run_button self') = false
           /\ run_control_reachable self' = false
           /\ run_requests (script self') = run_requests (script self))
  /\ (forall run_script later,
         sensitive (run_button (on_view_enter run_script later)) = true
         /\ run_control_reachable (on_view_enter run_script later) = true).
Proof.
  split; [intros Hs; simpl; unfold go_back_reachable; now rewrite Hs|].
  split; [reflexivity|]. split; [reflexivity|]. split; [reflexivity|].
  split.
  - intros events Hall.
    destruct (deliver_all_insensitive events (_switch_back self) Hall eq_refl)
      as [self' [Hrun [Hs Hr]]].
    exists self'. split; [exact Hrun|]. split; [exact Hs|].
    split; [|exact Hr].
    unfold run_control_reachable. now rewrite Hs.
  - intros run_script later. destruct run_script; split; reflexivity.
Qed.

End ViewFacts.

Section ViewSamples.
#[local] Existing Instance sample_runtime.

Example fresh_view_init : EditorView_init sample_script = Ok fresh_view.
Proof. reflexivity. Qed.

(** C1 fails on the code: with the toggle switched off (a real run, the
    icon on danger), a run click asks the script for a dry run. *)
Theorem real_run_requested_as_dry_run :
  match
    deliver_all [ViewEnter None; DryRunToggled; RunClicked sample_model]
                fresh_view
  with
  | Ok v =>
      dry_run (run_button v) = false
      /\ state_active (run_button v) = false
      /\ icon_stack v = danger_icon
      /\ run_requests (script v) = [true]
  | Raise _ => False
  end.
Proof. vm_compute. auto. Qed.

(** C2, as the claim words it, fails twice over.  After a run click,
    with [progressing] on screen and the script not yet finished, the
    run button is still sensitive; and when the view is entered again at
    that point, the button is back on screen and a click on it starts a
    second run, no [script-finished] having arrived. *)
Lemma second_run_started_during_run :
  match
    deliver_all [ViewEnter None; RunClicked sample_model;
                 LineRead "removed" "/tmp/a"] fresh_view
  with
  | Ok running =>
      stack running = progressing
      /\ sensitive (run_button running) = true
      /\ run_requests (script running) = [true]
      /\ match
           deliver_all [ViewEnter None; RunClicked sample_model] running
         with
         | Ok again =>
             stack again = progressing
             /\ run_requests (script again) = [true; true]
         | Raise _ => False
         end
  | Raise _ => False
  end.
Proof. vm_compute. auto. Qed.

Lemma run_control_hidden_while_running_witness :
  let quiet :=
    [LineRead "removed" "/tmp/a"; RunClicked sample_model; DryRunToggled;
     GoBackClicked; LineRead "Keeping" "/tmp/b"] in
  let whole :=
    (quiet ++ [ScriptFinished; RunClicked sample_model; GoBackClicked;
               RunClicked sample_model; DryRunToggled;
               LineRead "removed" "/tmp/a"])%list in
  let entered := on_view_enter None fresh_view in
  let running := on_run_script_clicked sample_model entered in
  Forall (fun e => is_view_enter e = false) whole
  /\ Forall (fun e => during_run e = true) quiet
  /\ sensitive (run_button entered) = true
  /\ stack running = progressing
  /\ run_button running = run_button entered
  /\ (exists self',
         deliver_all whole running = Ok self'
         /\ run_control_reachable self' = false
         /\ run_requests (script self') = run_requests (script running))
  /\ (exists self',
         deliver_all quiet running = Ok self'
         /\ run_control_reachable self' = false
         /\ run_requests (script self') = run_requests (script running)
         /\ stack self' = progressing
         /\ run_button self' = run_button entered
         /\ exists done,
             deliver ScriptFinished self' = Ok done
             /\ stack done = finished
             /\ run_button done = run_button entered
             /\ run_control_reachable done = false
             /\ run_requests (script done) = run_requests (script running)).
Proof.
  intros quiet whole entered running.
  assert (Hwhole : Forall (fun e => is_view_enter e = false) whole)
    by (repeat constructor).
  assert (Hquiet : Forall (fun e => during_run e = true) quiet)
    by (repeat constructor).
  assert (Hquiet' : Forall (fun e => is_view_enter e = false) quiet)
    by (repeat constructor).
  split; [exact Hwhole|]. split; [exact Hquiet|]. split; [reflexivity|].
  destruct (run_control_hidden_while_running sample_model entered whole Hwhole)
    as [Hst [Hb [self' [Hrun [Hreach [Hreq _]]]]]].
  split; [exact Hst|]. split; [exact Hb|]. split.
  - exists self'. auto.
  - destruct (run_control_hidden_while_running sample_model entered quiet
                Hquiet')
      as [_ [_ [mid [Hrun' [Hreach' [Hreq' Hmore]]]]]].
    destruct (Hmore Hquiet) as [Hst' [Hb' Hdone]].
    exists mid. auto 10.
Defined.

Lemma go_back_disables_run_witness :
  let done := with_stack finished fresh_view in
  let events :=
    [RunClicked sample_model; DryRunToggled; LineRead "removed" "/tmp/a";
     ScriptFinished; GoBackClicked] in
  stack done = finished
  /\ Forall (fun e => is_view_enter e = false) events
  /\ deliver GoBackClicked done = Ok (_switch_back done)
  /\ sensitive (run_button (_switch_back done)) = false
  /\ exists self',
      deliver_all events (_switch_back done) = Ok self'
      /\ sensitive (run_button self') = false
      /\ run_control_reachable self' = false
      /\ run_requests (script self') = run_requests (script done).
Proof.
  intros done events.
  assert (Hall : Forall (fun e => is_view_enter e = false) events)
    by (repeat constructor).
  destruct (go_back_disables_run done) as [Hback [_ [Hs [_ [Hstay _]]]]].
  split; [reflexivity|]. split; [exact Hall|].
  split; [exact (Hback eq_refl)|]. split; [exact Hs|].
  exact (Hstay events Hall).
Defined.

End ViewSamples.

(** ** What a run adds up to *)

Section AccountingFacts.
Context `{Runtime}.

Lemma push_counted model prefix path self :
  exists self',
    push model prefix path self = Ok self'
    /\ size_sum self' = (size_sum self + counted model prefix path)%Z.
Proof.
  unfold push, counted.
  destruct (is_keeping prefix).
  - exists self. split; [reflexivity|lia].
  - destruct model as [model|].
    + destruct (lookup_by_path model path) as [node|]; simpl;
        eexists; (split; [reflexivity|simpl; lia]).
    + eexists. split; [reflexivity|simpl; lia].
Qed.

Lemma counted_nonnegative model prefix path :
  sizes_nonnegative model -> (0 <= counted model prefix path)%Z.
Proof.
  unfold counted. intros Hm.
  destruct (is_keeping prefix); [lia|].
  destruct model as [model|]; [|lia].
  destruct (lookup_by_path model path) as [node|] eqn:Hn; [|lia].
  exact (Hm path node Hn).
Qed.

Lemma counted_all_nonnegative model events :
  sizes_nonnegative model -> (0 <= counted_all model events)%Z.
Proof.
  intros Hm. induction events as [|[prefix path] rest IH]; simpl; [lia|].
  pose proof (counted_nonnegative model prefix path Hm). lia.
Qed.

Lemma push_all_app model before after self :
  push_all model (before ++ after)%list self
  = (mid <- push_all model before self ;; push_all model after mid).
Proof.
  revert self. induction before as [|[prefix path] rest IH]; intros self;
    simpl; [reflexivity|].
  destruct (push model prefix path self) as [next|e]; simpl; [|reflexivity].
  apply IH.
Qed.

Lemma push_all_sums model events self :
  exists self',
    push_all model events self = Ok self'
    /\ size_sum self' = (size_sum self + counted_all model events)%Z.
Proof.
  revert self. induction events as [|[prefix path] rest IH]; intros self;
    simpl.
  - exists self. split; [reflexivity|lia].
  - destruct (push_counted model prefix path self) as [next [-> Hnext]].
    simpl. destruct (IH next) as [self' [-> Hrest]].
    exists self'. split; [reflexivity|lia].
Qed.

(** The sum after a stream of events is the sum before it plus, for each
    event that is not a "keeping" event, the size of the entry its path
    resolves to; an entry reported twice is counted twice, and a stream
    cut in two adds up to the same.  No stream makes [push] raise. *)
Theorem push_all_counts model before after self :
  exists self',
    push_all model (before ++ after)%list self = Ok self'
    /\ size_sum self' =
       (size_sum self + counted_all model before
        + counted_all model after)%Z.
Proof.
  destruct (push_all_sums model before self) as [mid [Hmid Hsum]].
  destruct (push_all_sums model after mid) as [self' [Hend Hsum']].
  exists self'. split; [|lia].
  rewrite push_all_app, Hmid. exact Hend.
Qed.

(** With sizes that are not negative the sum never goes down, whatever
    the events and wherever the stream is cut. *)
Theorem size_sum_never_decreases model before after self :
  sizes_nonnegative model ->
  exists mid self',
    push_all model before self = Ok mid
    /\ push_all model (before ++ after)%list self = Ok self'
    /\ (size_sum self <= size_sum mid <= size_sum self')%Z.
Proof.
  intros Hm.
  destruct (push_all_sums model before self) as [mid [Hmid Hsum]].
  destruct (push_all_sums model after mid) as [self' [Hend Hsum']].
  exists mid, self'. split; [exact Hmid|]. split.
  - rewrite push_all_app, Hmid. exact Hend.
  - pose proof (counted_all_nonnegative model before Hm).
    pose proof (counted_all_nonnegative model after Hm). lia.
Qed.

(** The label shows the last event that was not a "keeping" event: its
    prefix, its escaped path and the sum as it stood when the event
    arrived; "keeping" events that follow leave it on screen. *)
Theorem label_shows_last_removed model before prefix path after self :
  is_keeping prefix = false ->
  Forall (fun e => is_keeping (fst e) = true) after ->
  exists mid self',
    push_all model before self = Ok mid
    /\ push_all model (before ++ (prefix, path) :: after)%list self = Ok self'
    /\ markup self' =
       REMOVED_LABEL prefix (size_to_human_readable (size_sum mid))
         (markup_escape_text path)
    /\ size_sum self' = (size_sum mid + counted model prefix path)%Z.
Proof.
  intros Hk Hafter.
  destruct (push_all_sums model before self) as [mid [Hmid _]].
  assert (Hpush : exists next,
             push model prefix path mid = Ok next
             /\ markup next =
                REMOVED_LABEL prefix (size_to_human_readable (size_sum mid))
                  (markup_escape_text path)
             /\ size_sum next = (size_sum mid + counted model prefix path)%Z).
  { unfold push, counted. rewrite Hk.
    destruct model as [model|].
    - destruct (lookup_by_path model path) as [node|]; simpl;
        eexists; (split; [reflexivity|split; [reflexivity|simpl; lia]]).
    - eexists. split; [reflexivity|]. split; [reflexivity|simpl; lia]. }
  destruct Hpush as [next [Hnext [Hmark Hsum]]].
  exists mid, next. split; [exact Hmid|]. split; [|auto].
  rewrite push_all_app, Hmid. simpl. rewrite Hnext. simpl.
  now apply push_all_keeping.
Qed.

End AccountingFacts.

Section AccountingSamples.
#[local] Existing Instance sample_runtime.

Lemma sample_sizes_nonnegative : sizes_nonnegative (Some sample_model).
Proof.
  intros path node. simpl.
  destruct (path =? "/tmp/a"); [|discriminate].
  intros [= <-]. simpl. lia.
Qed.

Lemma size_sum_never_decreases_witness :
  let before := [("removed", "/tmp/a"); ("Keeping", "/tmp/b")] in
  let after := [("removed", "/tmp/c"); ("removed", "/tmp/a")] in
  sizes_nonnegative (Some sample_model)
  /\ exists mid self',
      push_all (Some sample_model) before fresh_label = Ok mid
      /\ push_all (Some sample_model) (before ++ after)%list fresh_label
         = Ok self'
      /\ (size_sum fresh_label <= size_sum mid <= size_sum self')%Z.
Proof.
  intros before after. split; [exact sample_sizes_nonnegative|].
  exact (size_sum_never_decreases (Some sample_model) before after fresh_label
           sample_sizes_nonnegative).
Defined.

Lemma label_shows_last_removed_witness :
  let before := [("removed", "/tmp/a")] in
  let after := [("Keeping", "/tmp/b"); ("keeping", "/tmp/c")] in
  is_keeping "removing" = false
  /\ Forall (fun e => is_keeping (fst e) = true) after
  /\ exists mid self',
      push_all (Some sample_model) before fresh_label = Ok mid
      /\ push_all (Some sample_model)
                  (before ++ ("removing", "/tmp/a") :: after)%list fresh_label
         = Ok self'
      /\ markup self' =
         REMOVED_LABEL "removing" (size_to_human_readable (size_sum mid))
           (markup_escape_text "/tmp/a")
      /\ size_sum self' =
         (size_sum mid + counted (Some sample_model) "removing" "/tmp/a")%Z.
Proof.
  intros before after.
  assert (Hafter : Forall (fun e => is_keeping (fst e) = true) after)
    by (repeat constructor).
  split; [reflexivity|]. split; [exact Hafter|].
  exact (label_shows_last_removed (Some sample_model) before "removing"
           "/tmp/a" after fresh_label eq_refl Hafter).
Defined.

Example push_all_sample :
  push_all (Some sample_model)
           [("removed", "/tmp/a"); ("Keeping", "/tmp/a");
            ("removed", "/tmp/x"); ("removing", "/tmp/a")] fresh_label
  = Ok {| size_sum := 8192;
          markup := REMOVED_LABEL "removing" "4096 B" "/tmp/a" |}.
Proof. reflexivity. Qed.

End AccountingSamples.

(** ** The view over whole traces *)

Section TraceFacts.
Context `{Runtime}.

Lemma restyle_style_for active ctx : restyle active ctx = style_for active.
Proof. destruct active; reflexivity. Qed.

Lemma emit_line_read_counts handlers prefix line self :
  exists self',
    emit_line_read handlers prefix line self = Ok self'
    /\ size_sum (run_label self') =
       (size_sum (run_label self) + counted_by handlers prefix line)%Z
    /\ stack self' = stack self
    /\ run_button self' = run_button self
    /\ icon_stack self' = icon_stack self
    /\ script self' = script self.
Proof.
  revert self. induction handlers as [|model rest IH]; intros self; simpl.
  - exists self. repeat split. lia.
  - unfold on_line_read.
    destruct (push_counted (Some model) prefix line (run_label self))
      as [label [-> Hlabel]].
    simpl.
    destruct (IH (with_run_label label self))
      as [self' [-> [Hsum [Hst [Hrb [Hic Hsc]]]]]].
    exists self'. simpl in *. repeat split; try assumption. lia.
Qed.

Lemma emit_script_finished_shown handlers self :
  emit_script_finished (S handlers) self = with_stack finished self.
Proof.
  simpl. unfold on_script_finished.
  induction handlers as [|n IH]; [reflexivity|].
  simpl. exact IH.
Qed.

Lemma emit_script_finished_keeps handlers self :
  run_button (emit_script_finished handlers self) = run_button self
  /\ icon_stack (emit_script_finished handlers self) = icon_stack self
  /\ run_label (emit_script_finished handlers self) = run_label self
  /\ script (emit_script_finished handlers self) = script self
  /\ (stack (emit_script_finished handlers self) = stack self
      \/ stack (emit_script_finished handlers self) = finished).
Proof.
  destruct handlers as [|n].
  - simpl. repeat split. now left.
  - rewrite emit_script_finished_shown. simpl. repeat split. now right.
Qed.

(** A reported line runs through every handler connected to the script:
    the sum grows by what each of them counts for it, and nothing but the
    label changes. *)
Theorem line_read_counts_per_handler prefix line self :
  exists self',
    deliver (LineRead prefix line) self = Ok self'
    /\ size_sum (run_label self') =
       (size_sum (run_label self)
        + counted_by (line_read_handlers (script self)) prefix line)%Z
    /\ stack self' = stack self
    /\ run_button self' = run_button self
    /\ script self' = script self.
Proof.
  destruct (emit_line_read_counts (line_read_handlers (script self))
              prefix line self)
    as [self' [Hrun [Hsum [Hst [Hrb [_ Hsc]]]]]].
  exists self'. auto.
Qed.

(** Handlers are connected at every run click and never disconnected, and
    the label is never reset: in a second run on the same script a line
    that resolves is counted twice. *)
Theorem second_run_counts_twice (model : TreeModel) prefix path node self :
  run_control_reachable self = true ->
  line_read_handlers (script self) = [] ->
  is_keeping prefix = false ->
  lookup_by_path model path = Some node ->
  exists self',
    deliver_all [RunClicked model; ScriptFinished; GoBackClicked;
                 ViewEnter None; RunClicked model; LineRead prefix path] self
    = Ok self'
    /\ size_sum (run_label self') =
       (size_sum (run_label self) + 2 * column_SIZE node)%Z
    /\ line_read_handlers (script self') = [model; model].
Proof.
  intros Hreach Hnone Hk Hn.
  cbn [deliver_all deliver Py.bind]. rewrite Hreach.
  cbn [Py.bind].
  change (script_finished_handlers (script (on_run_script_clicked model self)))
    with (S (script_finished_handlers (script self))).
  rewrite emit_script_finished_shown.
  cbn [Py.bind go_back_reachable stack with_stack].
  change (run_control_reachable
            (on_view_enter None
               (_switch_back
                  (with_stack finished (on_run_script_clicked model self)))))
    with true.
  cbn [Py.bind].
  match goal with
  | |- context [emit_line_read ?hs prefix path ?v] =>
      assert (Hh : hs = [model; model]) by (simpl; now rewrite Hnone);
      assert (Hl : run_label v = run_label self) by reflexivity;
      destruct (emit_line_read_counts hs prefix path v)
        as [self' [Hrun [Hsum [_ [_ [_ Hsc]]]]]];
      rewrite Hrun
  end.
  rewrite Hh, Hl in Hsum.
  exists self'. split; [reflexivity|]. split; [|now rewrite Hsc].
  rewrite Hsum. unfold counted_by, counted. rewrite Hk, Hn. lia.
Qed.

Lemma deliver_consistent e self :
  view_consistent self ->
  exists self', deliver e self = Ok self' /\ view_consistent self'.
Proof.
  intros [[Hact [Hbs Hss]] Hicon].
  destruct e; simpl.
  - destruct (run_control_reachable self); eexists;
      (split; [reflexivity|]); repeat split; assumption.
  - destruct (run_control_reachable self) eqn:Hreach.
    + eexists. split; [reflexivity|].
      apply andb_true_iff in Hreach. destruct Hreach as [Hsens _].
      unfold view_consistent, button_consistent. simpl.
      rewrite !restyle_style_for, Hsens.
      repeat split.
    + eexists. split; [reflexivity|]. repeat split; assumption.
  - destruct (go_back_reachable self).
    + eexists. split; [reflexivity|].
      unfold view_consistent, button_consistent. simpl.
      repeat split; assumption.
    + eexists. split; [reflexivity|]. repeat split; assumption.
  - eexists. split; [reflexivity|].
    unfold view_consistent, button_consistent.
    destruct run_script; simpl; rewrite !restyle_style_for, Hact;
      repeat split; assumption.
  - destruct (emit_line_read_counts (line_read_handlers (script self))
                prefix line self) as [self' [-> [_ [_ [Hrb [Hic _]]]]]].
    exists self'. split; [reflexivity|].
    unfold view_consistent, button_consistent. rewrite Hrb, Hic.
    repeat split; assumption.
  - eexists. split; [reflexivity|].
    destruct (emit_script_finished_keeps
                (script_finished_handlers (script self)) self)
      as [Hrb [Hic _]].
    unfold view_consistent, button_consistent. rewrite Hrb, Hic.
    repeat split; assumption.
Qed.

Lemma deliver_all_consistent events self :
  view_consistent self ->
  exists self', deliver_all events self = Ok self' /\ view_consistent self'.
Proof.
  revert self. induction events as [|e rest IH]; intros self Hc; simpl.
  - eauto.
  - destruct (deliver_consistent e self Hc) as [mid [-> Hmid]]. simpl.
    exact (IH mid Hmid).
Qed.

(** The view starts on a dry run, and whatever events follow, none
    raises and the run mode is shown consistently: the toggle agrees with
    the [dry_run] property, the icon is the warning for a dry run and the
    danger sign for a real one, the button carries the suggested style
    for a dry run and the destructive one for a real run, and the toggle
    carries the same style while sensitive and none while insensitive. *)
Theorem run_mode_shown_consistently (dummy : Script) (events : list Event) :
  exists fresh self',
    EditorView_init dummy = Ok fresh
    /\ dry_run (run_button fresh) = true
    /\ deliver_all events fresh = Ok self'
    /\ view_consistent self'.
Proof.
  unfold EditorView_init, RunningLabel_init.
  destruct (push_returns None "" "" {| size_sum := 0; markup := "" |})
    as [label ->].
  simpl.
  match goal with
  | |- exists fresh self', Ok ?v = Ok fresh /\ _ =>
      assert (Hfresh : view_consistent v) by (repeat split);
      destruct (deliver_all_consistent events v Hfresh) as [self' [Hrun Hc]];
      exists v, self'
  end.
  auto.
Qed.

End TraceFacts.

Section ScreenFacts.
Context `{Runtime}.

(** Going back and entering the view again gives the run button back as
    it was before: the run mode chosen and the styles that show it
    survive the round through the insensitive state. *)
Theorem reentry_restores_run_button (run_script : option Script)
        (self : EditorView) :
  button_consistent (run_button self) ->
  sensitive (run_button self) = true ->
  run_button (on_view_enter run_script (_switch_back self)) = run_button self
  /\ state_style (run_button (_switch_back self)) = no_style
  /\ button_style (run_button (_switch_back self))
     = button_style (run_button self).
Proof.
  intros [Hact [Hbs Hss]] Hsens.
  destruct self as [sc st ls [dry act sens bs ss] ic rl bt].
  simpl in *. subst. split; [|split; reflexivity].
  destruct run_script, dry; reflexivity.
Qed.

(** Toggling the run mode twice leaves the whole view as it was. *)
Theorem toggle_twice_is_identity (self : EditorView) :
  view_consistent self ->
  run_control_reachable self = true ->
  deliver_all [DryRunToggled; DryRunToggled] self = Ok self.
Proof.
  intros [[Hact [Hbs Hss]] Hicon] Hreach.
  destruct self as [sc st ls [dry act sens bs ss] ic rl bt].
  unfold run_control_reachable in Hreach. simpl in *.
  apply andb_true_iff in Hreach. destruct Hreach as [-> Hst].
  destruct st; try discriminate Hst. subst.
  destruct dry; reflexivity.
Qed.

(** One event moves the screen along one of four arrows or not at all: a
    run click from the script screen to the running one, the end of the
    script to the finished screen, going back from the finished screen to
    the script screen, a view entry to the script screen. *)
Theorem screen_moves_along_arrows (e : Event) (self : EditorView) :
  exists self',
    deliver e self = Ok self'
    /\ (stack self' = stack self \/ transition e (stack self) (stack self')).
Proof.
  destruct e; simpl.
  - destruct (run_control_reachable self) eqn:Hreach.
    + eexists. split; [reflexivity|]. right.
      unfold run_control_reachable in Hreach.
      apply andb_true_iff in Hreach. destruct Hreach as [_ Hst].
      destruct (stack self); try discriminate Hst. simpl. constructor.
    + eexists. split; [reflexivity|]. now left.
  - destruct (run_control_reachable self); eexists;
      (split; [reflexivity|]); now left.
  - destruct (go_back_reachable self) eqn:Hreach.
    + eexists. split; [reflexivity|]. right.
      unfold go_back_reachable in Hreach.
      destruct (stack self); try discriminate Hreach. simpl. constructor.
    + eexists. split; [reflexivity|]. now left.
  - eexists. split; [reflexivity|]. right.
    destruct run_script; simpl; constructor.
  - destruct (emit_line_read_counts (line_read_handlers (script self))
                prefix line self) as [self' [-> [_ [Hst _]]]].
    exists self'. split; [reflexivity|]. now left.
  - eexists. split; [reflexivity|].
    destruct (emit_script_finished_keeps
                (script_finished_handlers (script self)) self)
      as [_ [_ [_ [_ [Hst|Hst]]]]].
    + now left.
    + right. rewrite Hst. constructor.
Qed.

(** Only reported lines change the running label: no click, no view
    entry and no end of a script resets the sum or the text, so the sum
    carries over from one run to the next. *)
Theorem only_lines_change_label (e : Event) (self : EditorView) :
  is_line_read e = false ->
  exists self',
    deliver e self = Ok self' /\ run_label self' = run_label self.
Proof.
  intros He. destruct e; try discriminate He; simpl.
  - destruct (run_control_reachable self); eexists; split; reflexivity.
  - destruct (run_control_reachable self); eexists; split; reflexivity.
  - destruct (go_back_reachable self); eexists; split; reflexivity.
  - destruct run_script; eexists; split; reflexivity.
  - eexists. split; [reflexivity|].
    apply (emit_script_finished_keeps
             (script_finished_handlers (script self)) self).
Qed.

Lemma deliver_requests_dry e self :
  brings_script e = false ->
  exists self' k,
    deliver e self = Ok self'
    /\ run_requests (script self')
       = (run_requests (script self) ++ repeat true k)%list.
Proof.
  intros He. destruct e; simpl.
  - destruct (run_control_reachable self).
    + exists (on_run_script_clicked model self), 1. split; reflexivity.
    + exists self, 0. split; [reflexivity|]. simpl. now rewrite app_nil_r.
  - destruct (run_control_reachable self); eexists; exists 0;
      (split; [reflexivity|]); simpl; now rewrite app_nil_r.
  - destruct (go_back_reachable self); eexists; exists 0;
      (split; [reflexivity|]); simpl; now rewrite app_nil_r.
  - destruct run_script; [discriminate He|].
    eexists. exists 0. split; [reflexivity|]. simpl. now rewrite app_nil_r.
  - destruct (emit_line_read_counts (line_read_handlers (script self))
                prefix line self) as [self' [-> [_ [_ [_ [_ Hsc]]]]]].
    exists self', 0. split; [reflexivity|].
    rewrite Hsc. simpl. now rewrite app_nil_r.
  - eexists. exists 0. split; [reflexivity|].
    destruct (emit_script_finished_keeps
                (script_finished_handlers (script self)) self)
      as [_ [_ [_ [Hsc _]]]].
    rewrite Hsc. simpl. now rewrite app_nil_r.
Qed.

(** Whatever the user clicks and toggles, every run the view asks of its
    script is a dry run: as long as no other script is handed in, the
    requests recorded are the old ones followed by dry runs only. *)
Theorem only_dry_runs_requested (events : list Event) (self : EditorView) :
  Forall (fun e => brings_script e = false) events ->
  exists self' k,
    deliver_all events self = Ok self'
    /\ run_requests (script self')
       = (run_requests (script self) ++ repeat true k)%list.
Proof.
  intros Hall. revert self.
  induction Hall as [|e rest He _ IH]; intros self; simpl.
  - exists self, 0. split; [reflexivity|]. simpl. now rewrite app_nil_r.
  - destruct (deliver_requests_dry e self He) as [mid [k [-> Hmid]]]. simpl.
    destruct (IH mid) as [self' [k' [-> Hrest]]].
    exists self', (k + k'). split; [reflexivity|].
    now rewrite Hrest, Hmid, <- app_assoc, repeat_app.
Qed.

End ScreenFacts.

(** ** The save dialog at its edges *)

(** When the format button reports no choice ([None]): without a file
    name a [.sh] name is suggested; with a name that has a dot the
    concatenation raises [TypeError], which the handler does not catch and
    which the trailing [or ''] cannot prevent; with a name without a dot
    nothing happens. *)
Theorem format_change_without_choice (now : struct_time)
        (self : ScriptSaverDialog) :
  file_type self = None ->
  (truthy (filename self) = false ->
   exists self',
     on_file_type_changed now self = Ok self'
     /\ current_name self' = Some (suggestion now "sh"))
  /\ (forall base old,
         filename self = Some (base ++ "." ++ old) ->
         contains "." old = false ->
         on_file_type_changed now self = Raise TypeError)
  /\ (forall name,
         filename self = Some name ->
         name <> "" ->
         contains "." name = false ->
         on_file_type_changed now self = Ok self).
Proof.
  intros Hnone. split; [|split].
  - intros Hf. eexists. split; [now apply suggest_when_untyped|].
    unfold update_file_suggestion. rewrite Hnone. simpl.
    f_equal. now apply (strftime_suggestion now "sh").
  - intros base old Hf Hold. unfold on_file_type_changed.
    rewrite Hf, Hnone.
    assert (Ht : truthy (Some (base ++ "." ++ old)) = true).
    { apply truthy_spec. eexists. split; [reflexivity|].
      destruct base; discriminate. }
    rewrite Ht. unfold rsplit1.
    change (base ++ "." ++ old) with (base ++ String "."%char old).
    rewrite (rpartition_last "." base old Hold). reflexivity.
  - intros name Hf Hne Hdot. unfold on_file_type_changed. rewrite Hf.
    assert (Ht : truthy (Some name) = true).
    { apply truthy_spec. now exists name. }
    rewrite Ht. unfold rsplit1.
    rewrite (rpartition_absent "." name Hdot). reflexivity.
Qed.

(** A change of format never touches the Save button: whenever the
    handler returns, the button is as sensitive as before, and the choice
    of format is the one the button reported. *)
Theorem format_change_keeps_confirm (now : struct_time)
        (self self' : ScriptSaverDialog) :
  on_file_type_changed now self = Ok self' ->
  confirm_sensitive self' = confirm_sensitive self
  /\ file_type self' = file_type self.
Proof.
  unfold on_file_type_changed.
  destruct (filename self) as [name|].
  - destruct (negb (truthy (Some name))).
    + intros [= <-]. split; reflexivity.
    + unfold rsplit1. destruct (rpartition "." name) as [[path ext]|].
      * cbn [unpack2 Py.bind].
        destruct (file_type self) as [choice|] eqn:Hchoice.
        -- cbn [str_add Py.bind except_ValueError]. intros [= <-].
           split; [reflexivity|exact Hchoice].
        -- cbn [str_add Py.bind except_ValueError]. discriminate.
      * cbn [unpack2 Py.bind except_ValueError]. intros [= <-].
        split; reflexivity.
  - intros [= <-]. split; reflexivity.
Qed.

Section ScreenSamples.
#[local] Existing Instance sample_runtime.

Example second_run_sample :
  match
    deliver_all [ViewEnter None; RunClicked sample_model;
                 LineRead "removed" "/tmp/a"; ScriptFinished; GoBackClicked;
                 ViewEnter None; RunClicked sample_model;
                 LineRead "removed" "/tmp/a"] fresh_view
  with
  | Ok v => size_sum (run_label v) = 12288%Z
  | Raise _ => False
  end.
Proof. reflexivity. Qed.

Lemma second_run_counts_twice_witness :
  let entered := on_view_enter None fresh_view in
  run_control_reachable entered = true
  /\ line_read_handlers (script entered) = []
  /\ is_keeping "removed" = false
  /\ lookup_by_path sample_model "/tmp/a" = Some {| column_SIZE := 4096 |}
  /\ exists self',
      deliver_all [RunClicked sample_model; ScriptFinished; GoBackClicked;
                   ViewEnter None; RunClicked sample_model;
                   LineRead "removed" "/tmp/a"] entered
      = Ok self'
      /\ size_sum (run_label self') =
         (size_sum (run_label entered) + 2 * 4096)%Z
      /\ line_read_handlers (script self') = [sample_model; sample_model].
Proof.
  intros entered.
  split; [reflexivity|]. split; [reflexivity|]. split; [reflexivity|].
  split; [reflexivity|].
  exact (second_run_counts_twice sample_model "removed" "/tmp/a"
           {| column_SIZE := 4096 |} entered eq_refl eq_refl eq_refl eq_refl).
Defined.

Lemma fresh_view_consistent : view_consistent fresh_view.
Proof. repeat split. Qed.

Lemma reentry_restores_run_button_witness :
  let real := with_run_button (state_set_active false RunButton_init)
                              fresh_view in
  button_consistent (run_button real)
  /\ sensitive (run_button real) = true
  /\ dry_run (run_button real) = false
  /\ run_button (on_view_enter None (_switch_back real)) = run_button real
  /\ state_style (run_button (_switch_back real)) = no_style
  /\ button_style (run_button (_switch_back real))
     = button_style (run_button real).
Proof.
  intros real.
  assert (Hc : button_consistent (run_button real)) by (repeat split).
  split; [exact Hc|]. split; [reflexivity|]. split; [reflexivity|].
  exact (reentry_restores_run_button None real Hc eq_refl).
Defined.

Lemma toggle_twice_is_identity_witness :
  view_consistent fresh_view
  /\ run_control_reachable fresh_view = true
  /\ deliver_all [DryRunToggled; DryRunToggled] fresh_view = Ok fresh_view.
Proof.
  split; [exact fresh_view_consistent|]. split; [reflexivity|].
  exact (toggle_twice_is_identity fresh_view fresh_view_consistent eq_refl).
Defined.

Lemma only_lines_change_label_witness :
  is_line_read (RunClicked sample_model) = false
  /\ exists self',
      deliver (RunClicked sample_model) fresh_view = Ok self'
      /\ run_label self' = run_label fresh_view.
Proof.
  split; [reflexivity|].
  exact (only_lines_change_label (RunClicked sample_model) fresh_view eq_refl).
Defined.

Lemma only_dry_runs_requested_witness :
  let events :=
    [ViewEnter None; DryRunToggled; RunClicked sample_model; ScriptFinished;
     GoBackClicked; ViewEnter None; RunClicked sample_model] in
  Forall (fun e => brings_script e = false) events
  /\ exists self' k,
      deliver_all events fresh_view = Ok self'
      /\ run_requests (script self')
         = (run_requests (script fresh_view) ++ repeat true k)%list.
Proof.
  intros events.
  assert (Hall : Forall (fun e => brings_script e = false) events)
    by (repeat constructor).
  split; [exact Hall|].
  exact (only_dry_runs_requested events fresh_view Hall).
Defined.

Lemma format_change_without_choice_witness :
  let untyped :=
    {| file_type := None; filename := None;
       current_name := None; confirm_sensitive := false |} in
  let dotted :=
    {| file_type := None; filename := Some "foo.sh";
       current_name := Some "foo.sh"; confirm_sensitive := true |} in
  let plain :=
    {| file_type := None; filename := Some "Makefile";
       current_name := Some "Makefile"; confirm_sensitive := true |} in
  (exists self',
      on_file_type_changed sample_time untyped = Ok self'
      /\ current_name self' = Some "rmlint-2026-11-04T07:26:05+0100.sh")
  /\ on_file_type_changed sample_time dotted = Raise TypeError
  /\ on_file_type_changed sample_time plain = Ok plain.
Proof.
  intros untyped dotted plain. split; [|split].
  - exact (proj1 (format_change_without_choice sample_time untyped eq_refl)
             eq_refl).
  - exact (proj1 (proj2 (format_change_without_choice sample_time dotted
                           eq_refl))
             "foo" "sh" eq_refl eq_refl).
  - refine (proj2 (proj2 (format_change_without_choice sample_time plain
                            eq_refl))
              "Makefile" eq_refl _ eq_refl).
    discriminate.
Defined.

Lemma format_change_keeps_confirm_witness :
  let foo_sh :=
    {| file_type := Some "csv"; filename := Some "foo.sh";
       current_name := Some "foo.sh"; confirm_sensitive := false |} in
  on_file_type_changed sample_time foo_sh
  = Ok (set_current_name "foo.csv" foo_sh)
  /\ confirm_sensitive (set_current_name "foo.csv" foo_sh) = false
  /\ file_type (set_current_name "foo.csv" foo_sh) = Some "csv".
Proof.
  intros foo_sh.
  assert (Hrun : on_file_type_changed sample_time foo_sh
                 = Ok (set_current_name "foo.csv" foo_sh)) by reflexivity.
  split; [exact Hrun|].
  exact (format_change_keeps_confirm sample_time foo_sh _ Hrun).
Defined.

End ScreenSamples.
